(** * University course eligibility checker

    A shallow embedding of [course_eligibility_checker.py]: the class
    [CourseEligibilityChecker] holds one RDF graph and answers seven fixed
    questions, each by one SPARQL SELECT query followed by a little Python
    post-processing.

    The graph is a finite set of triples of RDF terms.  Every query of the
    source is written out as the nested enumeration that the SPARQL algebra
    assigns to its graph pattern, one line per triple pattern; the methods
    are written in a small state-and-exception monad over the checker
    object, so that what a method does to [self] is part of its meaning. *)

From stdpp Require Import gmap strings list sorting relations.
From Stdlib Require Import ZArith Ascii.

(** ** RDF terms *)

(** A literal is plain, language-tagged or datatyped; two literals are the
    same term only when lexical form and tag agree. *)
Inductive littag : Type :=
  | Plain
  | Lang (l : string)
  | Typed (dt : string).

Inductive term : Type :=
  | URIRef (iri : string)
  | BNode (id : string)
  | Literal (lex : string) (tag : littag).

Global Instance littag_eq_dec : EqDecision littag.
Proof. solve_decision. Defined.

Global Instance term_eq_dec : EqDecision term.
Proof. solve_decision. Defined.

Global Instance littag_countable : Countable littag.
Proof.
  refine (inj_countable'
    (λ t, match t with
          | Plain => inl ()
          | Lang l => inr (inl l)
          | Typed d => inr (inr d)
          end)
    (λ x, match x with
          | inl _ => Plain
          | inr (inl l) => Lang l
          | inr (inr d) => Typed d
          end) _).
  by intros [].
Defined.

Global Instance term_countable : Countable term.
Proof.
  refine (inj_countable'
    (λ t, match t with
          | URIRef s => inl s
          | BNode s => inr (inl s)
          | Literal s t => inr (inr (s, t))
          end)
    (λ x, match x with
          | inl s => URIRef s
          | inr (inl s) => BNode s
          | inr (inr (s, t)) => Literal s t
          end) _).
  by intros [].
Defined.

(** [str(t)]: every rdflib term is a Python [str] whose text is the IRI, the
    blank-node label or the lexical form; tags are dropped. *)
Definition py_str (t : term) : string :=
  match t with
  | URIRef s => s
  | BNode s => s
  | Literal s _ => s
  end.

Definition nonempty (s : string) : bool :=
  match s with
  | EmptyString => false
  | String _ _ => true
  end.

(** ** Triples, graphs and the vocabulary *)

Definition triple : Type := term * term * term.

(** [ONTO = Namespace("http://www.semanticweb.org/university/ontology#")];
    the empty prefix [:] of every query is bound to the same IRI. *)
Definition ONTO (local : string) : term :=
  URIRef ("http://www.semanticweb.org/university/ontology#" +:+ local).

(** The keyword [a] of SPARQL. *)
Definition rdf_type : term :=
  URIRef "http://www.w3.org/1999/02/22-rdf-syntax-ns#type".

Definition Course : term := ONTO "Course".
Definition Professor : term := ONTO "Professor".
Definition hasTaken : term := ONTO "hasTaken".
Definition hasPrerequisite : term := ONTO "hasPrerequisite".
Definition taughtBy : term := ONTO "taughtBy".
Definition worksInDepartment : term := ONTO "worksInDepartment".
Definition belongsToDepartment : term := ONTO "belongsToDepartment".
Definition courseCode : term := ONTO "courseCode".
Definition courseName : term := ONTO "courseName".
Definition creditHours : term := ONTO "creditHours".
Definition professorName : term := ONTO "professorName".
Definition departmentName : term := ONTO "departmentName".

(** ** Matching one triple pattern *)

(** [s p ?o]: the objects of the triples with subject [s] and predicate [p]. *)
Definition objects (G : gset triple) (s p : term) : list term :=
  omap (λ t : triple,
          if decide (t.1.1 = s ∧ t.1.2 = p) then Some t.2 else None)
       (elements G).

(** [?s p o]: the subjects of the triples with predicate [p] and object [o]. *)
Definition subjects (G : gset triple) (p o : term) : list term :=
  omap (λ t : triple,
          if decide (t.1.2 = p ∧ t.2 = o) then Some t.1.1 else None)
       (elements G).

(** ** The property path [p+]

    The arbitrary-length-path procedure of the SPARQL algebra: a depth-first
    walk that records every node it enters in [V] and does not enter a node
    twice.  The recursion is bounded by [fuel]; one more than the number of
    triples is always enough (lemma [ALP_spec] below). *)
Fixpoint ALP (fuel : nat) (G : gset triple) (p x : term) (V : gset term)
  : gset term :=
  match fuel with
  | O => V
  | S fuel' =>
      if decide (x ∈ V) then V
      else foldl (λ V' n, ALP fuel' G p n V') ({[x]} ∪ V) (objects G x p)
  end.

(** [x p+ ?y]: the walk is started at every [p]-successor of [x]. *)
Definition one_or_more (G : gset triple) (p x : term) : list term :=
  elements (foldl (λ V n, ALP (S (size G)) G p n V) ∅ (objects G x p)).

(** ** Solution modifiers *)

(** [OPTIONAL { ... }]: the solutions of the group when there are any, one
    solution leaving its variables unbound otherwise. *)
Definition optional {A : Type} (l : list A) : list (option A) :=
  match l with
  | [] => [None]
  | _ :: _ => Some <$> l
  end.

(** [GROUP BY key] with [COUNT]: one row per distinct key, holding the
    number of solutions that have this key. *)
Definition group_count {A K : Type} `{EqDecision K}
    (key : A → K) (sols : list A) : list (K * nat) :=
  (λ k, (k, length (filter (λ s, key s = k) sols)))
    <$> remove_dups (key <$> sols).

Definition count_ge {K : Type} (a b : K * nat) : Prop := (b.2 ≤ a.2)%nat.

Global Instance count_ge_dec {K : Type} : RelDecision (@count_ge K).
Proof. intros a b. unfold count_ge. apply _. Defined.

(** [ORDER BY DESC(?count)]. *)
Definition order_by_desc {K : Type} (rows : list (K * nat)) : list (K * nat) :=
  merge_sort count_ge rows.

(** ** The seven queries *)

(** [:{student_id} :hasTaken ?course . ?course :courseCode ?courseCode] *)
Definition query_courses_taken (student_id : string) (G : gset triple)
  : list term :=
  course ← objects G (ONTO student_id) hasTaken;
  courseCode' ← objects G course courseCode;
  [courseCode'].

(** The group pattern of [get_prerequisites], before [DISTINCT]. *)
Definition match_prerequisites (course_code : string) (G : gset triple)
  : list term :=
  course ← subjects G courseCode (Literal course_code Plain);
  prereq ← one_or_more G hasPrerequisite course;
  prereqCode ← objects G prereq courseCode;
  [prereqCode].

(** [SELECT DISTINCT ?prereqCode] *)
Definition query_prerequisites (course_code : string) (G : gset triple)
  : list term :=
  remove_dups (match_prerequisites course_code G).

Definition query_direct_prerequisites (course_code : string) (G : gset triple)
  : list term :=
  course ← subjects G courseCode (Literal course_code Plain);
  prereq ← objects G course hasPrerequisite;
  prereqCode ← objects G prereq courseCode;
  [prereqCode].

(** [SELECT ?courseCode ?courseName ?credits] over the [:Course] instances. *)
Definition query_courses (G : gset triple) : list (term * term * term) :=
  course ← subjects G rdf_type Course;
  courseCode' ← objects G course courseCode;
  courseName' ← objects G course courseName;
  credits ← objects G course creditHours;
  [(courseCode', courseName', credits)].

(** One solution of the workload pattern binds, in this order, [?prof],
    [?profName], [?dept], [?deptName] and [?course]. *)
Definition workload_solution : Type := term * term * term * term * term.

Definition match_workload (G : gset triple) : list workload_solution :=
  prof ← subjects G rdf_type Professor;
  profName ← objects G prof professorName;
  dept ← objects G prof worksInDepartment;
  deptName ← objects G dept departmentName;
  course ← subjects G taughtBy prof;
  [(prof, profName, dept, deptName, course)].

(** [GROUP BY ?profName ?deptName] *)
Definition workload_key (s : workload_solution) : term * term :=
  (s.1.1.1.2, s.1.2).

Definition query_workload (G : gset triple) : list (term * term * nat) :=
  order_by_desc (group_count workload_key (match_workload G)).

(** One row of [get_course_info]: [?courseName], [?credits], and the two
    variables that only an [OPTIONAL] group binds. *)
Definition info_row : Type := term * term * option term * option term.

Definition query_course_info (course_code : string) (G : gset triple)
  : list info_row :=
  course ← subjects G courseCode (Literal course_code Plain);
  courseName' ← objects G course courseName;
  credits ← objects G course creditHours;
  profName ← optional (prof ← objects G course taughtBy;
                       objects G prof professorName);
  deptName ← optional (dept ← objects G course belongsToDepartment;
                       objects G dept departmentName);
  [(courseName', credits, profName, deptName)].

(** ** The checker object and its methods *)

(** The only exception the methods themselves can raise: [int(...)] applied
    to a text that is not an integer numeral. *)
Inductive exn : Type :=
  | ValueError.

Inductive outcome (A : Type) : Type :=
  | Returns (a : A)
  | Raises (e : exn).

Arguments Returns {A} a.
Arguments Raises {A} e.

(** [self]: the one attribute set by [__init__] is the parsed graph. *)
Record CourseEligibilityChecker : Type := { g : gset triple }.

(** A method takes [self] and gives back its outcome and [self] as the call
    leaves it. *)
Definition method (A : Type) : Type :=
  CourseEligibilityChecker → outcome A * CourseEligibilityChecker.

Global Instance method_ret : MRet method :=
  λ A a self, (Returns a, self).

Global Instance method_bind : MBind method :=
  λ A B f m self,
    match m self with
    | (Returns a, self') => f a self'
    | (Raises e, self') => (Raises e, self')
    end.

Definition raise {A : Type} (e : exn) : method A :=
  λ self, (Raises e, self).

(** [self.g.query(q)] for a SELECT query [q]. *)
Definition query {A : Type} (q : gset triple → list A) : method (list A) :=
  λ self, (Returns (q (g self)), self).

(** [for x in l: acc = body(acc, x)] *)
Fixpoint for_each {A B : Type} (body : B → A → method B) (acc : B)
    (l : list A) : method B :=
  match l with
  | [] => mret acc
  | x :: l' => acc' ← body acc x; for_each body acc' l'
  end.

(** The order of Python's [sorted] on [str]. *)
Definition str_le (a b : string) : Prop := String.leb a b = true.

Global Instance str_le_dec : RelDecision str_le.
Proof. intros a b. unfold str_le. apply _. Defined.

(** The dictionaries the methods build. *)
Record available_course : Type :=
  { code : string; name : string; credits : Z }.

Record workload_entry : Type :=
  { professor : string; department : string; courses : Z }.

Record course_info : Type :=
  { info_code : string;
    info_name : string;
    info_credits : Z;
    info_professor : string;
    info_department : string;
    direct_prerequisites : list string;
    all_prerequisites : list string }.

Global Instance available_course_eq_dec : EqDecision available_course.
Proof. solve_decision. Defined.

Global Instance workload_entry_eq_dec : EqDecision workload_entry.
Proof. solve_decision. Defined.

Section Checker.

(** Python's [int] on a [str]: [None] stands for [ValueError]. *)
Variable py_int : string → option Z.

(** The truth value rdflib gives a datatyped literal, from its datatype
    IRI and its lexical form. *)
Variable typed_bool : string → string → bool.

(** [bool(t)]: a term is a [str], true when it is not empty; a datatyped
    literal is judged by the value its lexical form stands for. *)
Definition py_bool (t : term) : bool :=
  match t with
  | URIRef s => nonempty s
  | BNode s => nonempty s
  | Literal s Plain => nonempty s
  | Literal s (Lang _) => nonempty s
  | Literal s (Typed dt) => typed_bool dt s
  end.

(** [int(t)] *)
Definition int_ (t : term) : method Z :=
  match py_int (py_str t) with
  | Some n => mret n
  | None => raise ValueError
  end.

(** [str(v) if v else 'N/A'], for a variable that may be unbound. *)
Definition str_or_NA (v : option term) : string :=
  match v with
  | Some t => if py_bool t then py_str t else "N/A"
  | None => "N/A"
  end.

Definition get_courses_taken (student_id : string) : method (gset string) :=
  results ← query (query_courses_taken student_id);
  mret (list_to_set (py_str <$> results)).

Definition get_prerequisites (course_code : string) : method (list string) :=
  results ← query (query_prerequisites course_code);
  mret (py_str <$> results).

Definition get_direct_prerequisites (course_code : string)
  : method (list string) :=
  results ← query (query_direct_prerequisites course_code);
  mret (py_str <$> results).

Definition can_enroll (student_id course_code : string)
  : method (bool * list string) :=
  courses_taken ← get_courses_taken student_id;
  prereqs ← get_prerequisites course_code;
  let prerequisites : gset string := list_to_set prereqs in
  if decide (prerequisites = ∅) then mret (true, [])
  else
    let missing := prerequisites ∖ courses_taken in
    mret (bool_decide (size missing = 0),
          merge_sort str_le (elements missing)).

Definition get_available_courses (student_id : string)
  : method (list available_course) :=
  results ← query query_courses;
  courses_taken ← get_courses_taken student_id;
  for_each
    (λ (available : list available_course) (row : term * term * term),
       let course_code := py_str row.1.1 in
       if decide (course_code ∈ courses_taken) then mret available
       else
         '(can_take, missing) ← can_enroll student_id course_code;
         if (can_take : bool) then
           n ← int_ row.2;
           mret (available ++
                 [{| code := course_code; name := py_str row.1.2;
                     credits := n |}])
         else mret available)
    [] results.

(** The count is an integer literal the engine made itself, so [int] of
    it is its value. *)
Definition get_professor_workload : method (list workload_entry) :=
  results ← query query_workload;
  for_each
    (λ (workload : list workload_entry) (row : term * term * nat),
       mret (workload ++
             [{| professor := py_str row.1.1; department := py_str row.1.2;
                 courses := Z.of_nat row.2 |}]))
    [] results.

Definition get_course_info (course_code : string)
  : method (option course_info) :=
  results ← query (query_course_info course_code);
  match results with
  | [] => mret None
  | row :: _ =>
      direct_prereqs ← get_direct_prerequisites course_code;
      all_prereqs ← get_prerequisites course_code;
      n ← int_ row.1.1.2;
      mret (Some {| info_code := course_code;
                    info_name := py_str row.1.1.1;
                    info_credits := n;
                    info_professor := str_or_NA row.1.2;
                    info_department := str_or_NA row.2;
                    direct_prerequisites := direct_prereqs;
                    all_prerequisites := all_prereqs |})
  end.

End Checker.

(** ** A client of the checker *)

(** The seven query methods a client can call, and what each answers. *)
Inductive call : Type :=
  | GetCoursesTaken (student_id : string)
  | GetPrerequisites (course_code : string)
  | GetDirectPrerequisites (course_code : string)
  | CanEnroll (student_id course_code : string)
  | GetAvailableCourses (student_id : string)
  | GetProfessorWorkload
  | GetCourseInfo (course_code : string).

Inductive response : Type :=
  | CoursesTaken (r : gset string)
  | Prerequisites (r : list string)
  | DirectPrerequisites (r : list string)
  | Enrollable (r : bool * list string)
  | AvailableCourses (r : list available_course)
  | ProfessorWorkload (r : list workload_entry)
  | CourseInfo (r : option course_info).

Section Client.

Variable py_int : string → option Z.
Variable typed_bool : string → string → bool.

Definition perform (c : call) : method response :=
  match c with
  | GetCoursesTaken student_id =>
      r ← get_courses_taken student_id; mret (CoursesTaken r)
  | GetPrerequisites course_code =>
      r ← get_prerequisites course_code; mret (Prerequisites r)
  | GetDirectPrerequisites course_code =>
      r ← get_direct_prerequisites course_code; mret (DirectPrerequisites r)
  | CanEnroll student_id course_code =>
      r ← can_enroll student_id course_code; mret (Enrollable r)
  | GetAvailableCourses student_id =>
      r ← get_available_courses py_int student_id; mret (AvailableCourses r)
  | GetProfessorWorkload =>
      r ← get_professor_workload; mret (ProfessorWorkload r)
  | GetCourseInfo course_code =>
      r ← get_course_info py_int typed_bool course_code; mret (CourseInfo r)
  end.

(** The calls are made one after the other on the same object, whatever
    each returns or raises; the result lists, call by call, the outcome
    and the object as the call left it. *)
Fixpoint session (calls : list call) (self : CourseEligibilityChecker)
  : list (outcome response * CourseEligibilityChecker) :=
  match calls with
  | [] => []
  | c :: calls' =>
      let r := perform c self in
      r :: session calls' r.2
  end.

End Client.

(** ** Notions used to state the properties *)

(** One step of the relation a path follows: [a p b] is in the graph. *)
Definition edge (G : gset triple) (p : term) (a b : term) : Prop :=
  (a, p, b) ∈ G.

(** Every node a walk can enter is the object of some triple. *)
Definition targets (G : gset triple) : gset term :=
  list_to_set ((λ t : triple, t.2) <$> elements G).

(** What one call of the walk, or a run of calls over a list of start
    nodes, adds to the visited set [V]: the start nodes, only nodes
    reachable from them, and with every added node its successors. *)
Definition extends (G : gset triple) (p : term) (starts : list term)
    (V R : gset term) : Prop :=
  V ⊆ R ∧
  (∀ n, n ∈ starts → n ∈ R) ∧
  (∀ y, y ∈ R → y ∉ V → ∃ n, n ∈ starts ∧ rtc (edge G p) n y) ∧
  (∀ y z, y ∈ R → y ∉ V → edge G p y z → z ∈ R).

(** [c] is a code term of a course reached from a course whose code is the
    plain literal [course_code] by one or more [:hasPrerequisite] steps. *)
Definition prerequisite_code (G : gset triple) (course_code : string)
    (c : term) : Prop :=
  ∃ course prereq,
    (course, courseCode, Literal course_code Plain) ∈ G ∧
    tc (edge G hasPrerequisite) course prereq ∧
    (prereq, courseCode, c) ∈ G.

(** The same with exactly one step. *)
Definition direct_prerequisite_code (G : gset triple) (course_code : string)
    (c : term) : Prop :=
  ∃ course prereq,
    (course, courseCode, Literal course_code Plain) ∈ G ∧
    edge G hasPrerequisite course prereq ∧
    (prereq, courseCode, c) ∈ G.

(** ** Sample data *)

Definition plain (s : string) : term := Literal s Plain.

(** Three courses in a chain of prerequisites, two professors of one
    department, and a student who has completed the first course. *)
Definition catalogue : gset triple :=
  list_to_set
    [ (ONTO "Course101", rdf_type, Course);
      (ONTO "Course101", courseCode, plain "CS-101");
      (ONTO "Course101", courseName, plain "Programming");
      (ONTO "Course101", creditHours, plain "3");
      (ONTO "Course101", taughtBy, ONTO "Prof1");
      (ONTO "Course101", belongsToDepartment, ONTO "Dept1");
      (ONTO "Course201", rdf_type, Course);
      (ONTO "Course201", courseCode, plain "CS-201");
      (ONTO "Course201", courseName, plain "Data Structures");
      (ONTO "Course201", creditHours, plain "4");
      (ONTO "Course201", taughtBy, ONTO "Prof2");
      (ONTO "Course201", hasPrerequisite, ONTO "Course101");
      (ONTO "Course301", rdf_type, Course);
      (ONTO "Course301", courseCode, plain "CS-301");
      (ONTO "Course301", courseName, plain "Algorithms");
      (ONTO "Course301", creditHours, plain "4");
      (ONTO "Course301", taughtBy, ONTO "Prof2");
      (ONTO "Course301", hasPrerequisite, ONTO "Course201");
      (ONTO "Prof1", rdf_type, Professor);
      (ONTO "Prof1", professorName, plain "Ada");
      (ONTO "Prof1", worksInDepartment, ONTO "Dept1");
      (ONTO "Prof2", rdf_type, Professor);
      (ONTO "Prof2", professorName, plain "Bob");
      (ONTO "Prof2", worksInDepartment, ONTO "Dept1");
      (ONTO "Dept1", departmentName, plain "Computer Science");
      (ONTO "Student001", hasTaken, ONTO "Course101") ].

(** A course whose prerequisite carries its code twice, once plain and
    once with a language tag. *)
Definition tagged_codes : gset triple :=
  list_to_set
    [ (ONTO "Course201", courseCode, plain "CS-201");
      (ONTO "Course201", hasPrerequisite, ONTO "Course101");
      (ONTO "Course101", courseCode, plain "CS-101");
      (ONTO "Course101", courseCode, Literal "CS-101" (Lang "en")) ].

(** A reading of the decimal numerals with an optional sign, for the
    examples that need a value for [int]. *)
Definition digit_of (a : ascii) : option Z :=
  let n := nat_of_ascii a in
  if bool_decide (48 ≤ n ≤ 57) then Some (Z.of_nat (n - 48)) else None.

Fixpoint digits (acc : Z) (s : string) : option Z :=
  match s with
  | EmptyString => Some acc
  | String a s' =>
      match digit_of a with
      | Some d => digits (10 * acc + d) s'
      | None => None
      end
  end.

Definition decimal_int (s : string) : option Z :=
  match s with
  | EmptyString => None
  | String "-"%char s' => if nonempty s' then Z.opp <$> digits 0 s' else None
  | String "+"%char s' => if nonempty s' then digits 0 s' else None
  | String _ _ => digits 0 s
  end.

(** Datatyped literals taken as true whatever they are; the examples have
    none. *)
Definition any_typed : string → string → bool := λ _ _, true.

(** A method that hands [self] back as it got it. *)
Definition read_only {A : Type} (m : method A) : Prop :=
  ∀ self, (m self).2 = self.

(** The dictionary [get_professor_workload] makes of one row. *)
Definition workload_entry_of (row : term * term * nat) : workload_entry :=
  {| professor := py_str row.1.1; department := py_str row.1.2;
     courses := Z.of_nat row.2 |}.

(** The sum of the ['courses'] counts of a workload report. *)
Definition total_workload (report : list workload_entry) : Z :=
  foldr (λ e acc, (courses e + acc)%Z) 0%Z report.

(** The number of courses in the graph: the resources of type [:Course],
    the ones [get_available_courses] ranges over. *)
Definition total_course_count (G : gset triple) : nat :=
  length (subjects G rdf_type Course).

(** The departments of a professor, each with each of its names. *)
Definition named_departments (G : gset triple) (prof : term)
  : list (term * term) :=
  dept ← objects G prof worksInDepartment;
  deptName ← objects G dept departmentName;
  [(dept, deptName)].

(** A graph in which teaching is recorded the way the report presumes:
    every course has exactly one teacher, only courses are taught, and
    whoever teaches is a [:Professor] with exactly one name and exactly
    one department, which has exactly one name. *)
Definition fully_staffed (G : gset triple) : Prop :=
  Forall (λ c, length (objects G c taughtBy) = 1)
         (subjects G rdf_type Course) ∧
  set_Forall (λ t : triple,
                t.1.2 = taughtBy →
                (t.1.1, rdf_type, Course) ∈ G ∧
                (t.2, rdf_type, Professor) ∈ G ∧
                length (objects G t.2 professorName) = 1 ∧
                length (named_departments G t.2) = 1) G.

Global Instance fully_staffed_dec (G : gset triple) :
  Decision (fully_staffed G).
Proof. unfold fully_staffed. apply _. Defined.

(** Two courses, of which only the first has a teacher. *)
Definition untaught : gset triple :=
  list_to_set
    [ (ONTO "Course101", rdf_type, Course);
      (ONTO "Course101", courseCode, plain "CS-101");
      (ONTO "Course101", courseName, plain "Programming");
      (ONTO "Course101", creditHours, plain "3");
      (ONTO "Course101", taughtBy, ONTO "Prof1");
      (ONTO "Course999", rdf_type, Course);
      (ONTO "Course999", courseCode, plain "CS-999");
      (ONTO "Course999", courseName, plain "Special Topics");
      (ONTO "Course999", creditHours, plain "2");
      (ONTO "Prof1", rdf_type, Professor);
      (ONTO "Prof1", professorName, plain "Ada");
      (ONTO "Prof1", worksInDepartment, ONTO "Dept1");
      (ONTO "Dept1", departmentName, plain "Computer Science") ].

(** The student's completed courses, as [get_courses_taken] collects
    them. *)
Definition completed (G : gset triple) (student_id : string) : gset string :=
  list_to_set (py_str <$> query_courses_taken student_id G).

(** The prerequisites of a course, as [can_enroll] collects them. *)
Definition required (G : gset triple) (course_code : string) : gset string :=
  list_to_set (py_str <$> query_prerequisites course_code G).

(** The test the loop of [get_available_courses] applies to a row: the
    code is not among the completed ones and [can_enroll] says yes. *)
Definition offered (G : gset triple) (student_id : string)
    (row : term * term * term) : Prop :=
  (py_str row.1.1 ∉ completed G student_id) ∧
  (required G (py_str row.1.1) = ∅ ∨
   required G (py_str row.1.1) ∖ completed G student_id = ∅).

Global Instance offered_dec (G : gset triple) (student_id : string)
    (row : term * term * term) : Decision (offered G student_id row).
Proof. unfold offered. apply _. Defined.

(** The dictionary the loop appends for a row, when [int] accepts the
    credits. *)
Definition available_course_of (py_int : string → option Z)
    (row : term * term * term) : option available_course :=
  match py_int (py_str row.2) with
  | Some n =>
      Some {| code := py_str row.1.1; name := py_str row.1.2; credits := n |}
  | None => None
  end.

(** A course without a name, and a student who has taken nothing. *)
Definition unnamed_course : gset triple :=
  list_to_set
    [ (ONTO "Course999", rdf_type, Course);
      (ONTO "Course999", courseCode, plain "CS-999");
      (ONTO "Course999", creditHours, plain "2") ].

(** A resource of type [:Course] with the code [c], the name [n] and the
    credits [k]: one solution of the query of [get_available_courses]. *)
Definition course_row (G : gset triple) (c n k : term) : Prop :=
  ∃ course,
    (course, rdf_type, Course) ∈ G ∧
    (course, courseCode, c) ∈ G ∧
    (course, courseName, n) ∈ G ∧
    (course, creditHours, k) ∈ G.

(** [n] is the name of a professor who teaches [course]: a solution of the
    first [OPTIONAL] group of [get_course_info]. *)
Definition professor_name_of (G : gset triple) (course n : term) : Prop :=
  ∃ prof, (course, taughtBy, prof) ∈ G ∧ (prof, professorName, n) ∈ G.

(** [n] is the name of a department [course] belongs to: a solution of the
    second [OPTIONAL] group. *)
Definition department_name_of (G : gset triple) (course n : term) : Prop :=
  ∃ dept, (course, belongsToDepartment, dept) ∈ G ∧
          (dept, departmentName, n) ∈ G.

(** What an [OPTIONAL] group leaves in its variable: a solution of the
    group, or nothing when the group has no solution. *)
Definition optionally {A : Type} (P : A → Prop) (v : option A) : Prop :=
  match v with
  | Some x => P x
  | None => ∀ x, ¬ P x
  end.

(** A course whose professor has the empty name, and a course whose
    credits are spelled out. *)
Definition odd_values : gset triple :=
  list_to_set
    [ (ONTO "Course101", courseCode, plain "CS-101");
      (ONTO "Course101", courseName, plain "Programming");
      (ONTO "Course101", creditHours, plain "3");
      (ONTO "Course101", taughtBy, ONTO "Prof1");
      (ONTO "Prof1", professorName, plain "");
      (ONTO "Course102", courseCode, plain "CS-102");
      (ONTO "Course102", courseName, plain "Logic");
      (ONTO "Course102", creditHours, plain "three") ].

(** ** Notions for the further properties *)

(** The text of a code tells the course: a course that carries some code
    term and a course that carries the plain literal with the same text
    are one course. *)
Definition codes_identify_courses (G : gset triple) : Prop :=
  set_Forall (λ t1 : triple,
    set_Forall (λ t2 : triple,
      t1.1.2 = courseCode → t2.1.2 = courseCode →
      t2.2 = Literal (py_str t1.2) Plain → t1.1.1 = t2.1.1) G) G.

Global Instance codes_identify_courses_dec (G : gset triple) :
  Decision (codes_identify_courses G).
Proof. unfold codes_identify_courses. apply _. Defined.

(** Two courses that require each other, a course that requires nothing,
    and a student without completed courses. *)
Definition cyclic : gset triple :=
  list_to_set
    [ (ONTO "Course101", rdf_type, Course);
      (ONTO "Course101", courseCode, plain "CS-101");
      (ONTO "Course101", courseName, plain "Programming");
      (ONTO "Course101", creditHours, plain "3");
      (ONTO "Course101", hasPrerequisite, ONTO "Course201");
      (ONTO "Course201", rdf_type, Course);
      (ONTO "Course201", courseCode, plain "CS-201");
      (ONTO "Course201", courseName, plain "Data Structures");
      (ONTO "Course201", creditHours, plain "4");
      (ONTO "Course201", hasPrerequisite, ONTO "Course101");
      (ONTO "Course001", rdf_type, Course);
      (ONTO "Course001", courseCode, plain "CS-001");
      (ONTO "Course001", courseName, plain "Orientation");
      (ONTO "Course001", creditHours, plain "1") ].

(** ** The demonstration driver *)

From stdpp Require Import pretty.

(** [main] prints with [print] and calls methods of the checker it has
    built; what it has printed so far is carried along with the checker.
    An exception a method raises is not caught: it ends the run. *)
Definition script (A : Type) : Type :=
  CourseEligibilityChecker * list string →
  outcome A * (CourseEligibilityChecker * list string).

Global Instance script_ret : MRet script :=
  λ A a st, (Returns a, st).

Global Instance script_bind : MBind script :=
  λ A B f m st,
    match m st with
    | (Returns a, st') => f a st'
    | (Raises e, st') => (Raises e, st')
    end.

(** [print(line)]: one more line on standard output. *)
Definition print (line : string) : script unit :=
  λ st, (Returns (), (st.1, st.2 ++ [line])).

(** [checker.m(...)] *)
Definition call_method {A : Type} (m : method A) : script A :=
  λ st, ((m st.1).1, ((m st.1).2, st.2)).

(** [for x in l: body(x)] *)
Fixpoint for_ {A : Type} (l : list A) (body : A → script unit) : script unit :=
  match l with
  | [] => mret ()
  | x :: l' => body x ≫= λ _, for_ l' body
  end.

(** [s * n] *)
Definition str_times (s : string) (n : nat) : string :=
  String.concat "" (replicate n s).

(** [len(s)]: the number of characters of a text held as UTF-8, that is
    of the bytes that do not continue a character. *)
Fixpoint py_len (s : string) : nat :=
  match s with
  | EmptyString => 0
  | String a s' =>
      if bool_decide (128 ≤ nat_of_ascii a ≤ 191) then py_len s'
      else S (py_len s')
  end.

(** The format [{s:<width}]: [s], then blanks up to [width] characters. *)
Definition ljust (width : nat) (s : string) : string :=
  s +:+ str_times " " (width - py_len s).

(** One line of the workload table:
    [f"{prof['professor']:<30} {prof['department']:<20} {prof['courses']:<10}"] *)
Definition table_row (prof : workload_entry) : string :=
  ljust 30 (professor prof) +:+ " " +:+
  ljust 20 (department prof) +:+ " " +:+
  ljust 10 (pretty (courses prof)).

(** [f"{'Professor':<30} {'Department':<20} {'Courses':<10}"] *)
Definition table_head : string :=
  ljust 30 "Professor" +:+ " " +:+ ljust 20 "Department" +:+ " "
  +:+ ljust 10 "Courses".

Section Main.

Variable py_int : string → option Z.
Variable typed_bool : string → string → bool.

(** [main()], from the point where [CourseEligibilityChecker(owl_file)]
    has returned the checker; the five lines printed before that are
    printed here first. *)
Definition main : script unit :=
  print (str_times "=" 60) ≫= λ _,
  print "UNIVERSITY COURSE ELIGIBILITY CHECKER" ≫= λ _,
  print "Team: Slim Hassen & Khalifa Abdallah" ≫= λ _,
  print (str_times "=" 60) ≫= λ _,
  print "" ≫= λ _,
  print "EXAMPLE 1: Course Eligibility Check" ≫= λ _,
  print (str_times "-" 60) ≫= λ _,
  let student_id := "Student001" in
  courses_taken ← call_method (get_courses_taken student_id);
  print ("Student: Alice Johnson (ID: " +:+ student_id +:+ ")") ≫= λ _,
  print ("Courses Completed: " +:+
         String.concat ", " (merge_sort str_le (elements courses_taken)))
    ≫= λ _,
  print "" ≫= λ _,
  available ← call_method (get_available_courses py_int student_id);
  print ("Available Courses to Enroll (" +:+ pretty (length available)
         +:+ " courses):") ≫= λ _,
  print "" ≫= λ _,
  for_ available (λ course,
    print ("  • " +:+ code course +:+ ": " +:+ name course +:+ " ("
           +:+ pretty (credits course) +:+ " credits)")) ≫= λ _,
  print "" ≫= λ _,
  print "" ≫= λ _,
  print "EXAMPLE 2: Course Prerequisite Analysis" ≫= λ _,
  print (str_times "-" 60) ≫= λ _,
  let course_code := "CS-401" in
  info ← call_method (get_course_info py_int typed_bool course_code);
  match info with
  | Some info =>
      print ("Course: " +:+ info_code info +:+ " - " +:+ info_name info)
        ≫= λ _,
      print ("Credits: " +:+ pretty (info_credits info)) ≫= λ _,
      print ("Professor: " +:+ info_professor info) ≫= λ _,
      print ("Department: " +:+ info_department info) ≫= λ _,
      print "" ≫= λ _,
      print "Direct Prerequisites:" ≫= λ _,
      for_ (direct_prerequisites info) (λ prereq,
        print ("  • " +:+ prereq)) ≫= λ _,
      print "" ≫= λ _,
      print "All Prerequisites (including indirect):" ≫= λ _,
      for_ (all_prerequisites info) (λ prereq,
        print ("  • " +:+ prereq)) ≫= λ _,
      print "" ≫= λ _,
      r ← call_method (can_enroll student_id course_code);
      print ("Can Alice enroll? " +:+
             (if r.1 : bool then "YES ✓" else "NO ✗")) ≫= λ _,
      if negb r.1 then
        print ("Missing prerequisites: " +:+ String.concat ", " r.2)
      else mret ()
  | None => mret ()
  end ≫= λ _,
  print "" ≫= λ _,
  print "" ≫= λ _,
  print "EXAMPLE 3: Professor Workload Report" ≫= λ _,
  print (str_times "-" 60) ≫= λ _,
  workload ← call_method get_professor_workload;
  print table_head ≫= λ _,
  print (str_times "-" 60) ≫= λ _,
  for_ workload (λ prof, print (table_row prof)) ≫= λ _,
  print "" ≫= λ _,
  print (str_times "=" 60) ≫= λ _,
  print "Analysis Complete!" ≫= λ _,
  print (str_times "=" 60).

End Main.

(** The sample catalogue with a fourth course, CS-401, on top of the
    chain. *)
Definition campus : gset triple :=
  catalogue ∪
  list_to_set
    [ (ONTO "Course401", rdf_type, Course);
      (ONTO "Course401", courseCode, plain "CS-401");
      (ONTO "Course401", courseName, plain "Machine Learning");
      (ONTO "Course401", creditHours, plain "4");
      (ONTO "Course401", taughtBy, ONTO "Prof1");
      (ONTO "Course401", belongsToDepartment, ONTO "Dept1");
      (ONTO "Course401", hasPrerequisite, ONTO "Course301") ].

(** * Properties *)

#[local] Set Warnings "-clear-no-such-hyp".

(** ** Triple patterns *)

Section Store.

Context (G : gset triple).

Lemma elem_of_objects (s p o : term) : o ∈ objects G s p ↔ (s, p, o) ∈ G.
Proof.
  unfold objects. rewrite list_elem_of_omap. split.
  - intros ([[s' p'] o'] & Hin & Hm). simpl in Hm.
    case_decide as Hd; [|done]. destruct Hd as [-> ->].
    injection Hm as ->. by apply elem_of_elements.
  - intros Hin. exists (s, p, o). split; [by apply elem_of_elements|].
    simpl. by rewrite decide_True.
Qed.

Lemma elem_of_subjects (p o s : term) : s ∈ subjects G p o ↔ (s, p, o) ∈ G.
Proof.
  unfold subjects. rewrite list_elem_of_omap. split.
  - intros ([[s' p'] o'] & Hin & Hm). simpl in Hm.
    case_decide as Hd; [|done]. destruct Hd as [-> ->].
    injection Hm as ->. by apply elem_of_elements.
  - intros Hin. exists (s, p, o). split; [by apply elem_of_elements|].
    simpl. by rewrite decide_True.
Qed.

Lemma NoDup_omap_inj {A B : Type} (f : A → option B) (l : list A) :
  (∀ x y z, x ∈ l → y ∈ l → f x = Some z → f y = Some z → x = y) →
  NoDup l → NoDup (omap f l).
Proof.
  intros Hinj Hnd. induction Hnd as [|x l Hx Hnd IH]; simpl; [constructor|].
  assert (NoDup (omap f l)) as IH'.
  { apply IH. intros a b z Ha Hb. apply Hinj; by constructor. }
  destruct (f x) as [z|] eqn:Hfx; [|done].
  constructor; [|done].
  rewrite list_elem_of_omap. intros (y & Hy & Hfy).
  apply Hx. rewrite (Hinj x y z); [done|by left|by right|done|done].
Qed.

Lemma NoDup_objects (s p : term) : NoDup (objects G s p).
Proof.
  apply NoDup_omap_inj; [|apply NoDup_elements].
  intros [[s1 p1] o1] [[s2 p2] o2] z _ _; simpl.
  do 2 (destruct (decide _) as [[??]|]; [|done]). congruence.
Qed.

Lemma NoDup_subjects (p o : term) : NoDup (subjects G p o).
Proof.
  apply NoDup_omap_inj; [|apply NoDup_elements].
  intros [[s1 p1] o1] [[s2 p2] o2] z _ _; simpl.
  do 2 (destruct (decide _) as [[??]|]; [|done]). congruence.
Qed.

End Store.

(** ** The walk computes the transitive closure *)

Lemma size_list_to_set_le (l : list term) :
  size (list_to_set l : gset term) ≤ length l.
Proof.
  induction l as [|x l IH]; simpl.
  - done.
  - rewrite size_union_alt, size_singleton.
    assert (size (list_to_set l ∖ {[x]} : gset term) ≤ size (list_to_set l : gset term)).
    { apply subseteq_size. set_solver. }
    lia.
Qed.

Section Path.

Context (G : gset triple) (p : term).

Local Abbreviation edge := (edge G p).
Local Abbreviation targets := (targets G).
Local Abbreviation extends := (extends G p).

Lemma edge_targets (a b : term) : edge a b → b ∈ targets.
Proof.
  intros H. unfold targets. apply elem_of_list_to_set, list_elem_of_fmap.
  exists (a, p, b). split; [done|]. by apply elem_of_elements.
Qed.

Lemma size_targets : size targets ≤ size G.
Proof.
  unfold targets. etrans; [apply size_list_to_set_le|].
  by rewrite length_fmap.
Qed.

Lemma extends_foldl (fuel : nat) :
  (∀ x V, x ∈ targets → size (targets ∖ V) < fuel →
          extends [x] V (ALP fuel G p x V)) →
  ∀ l V, (∀ n, n ∈ l → n ∈ targets) → size (targets ∖ V) < fuel →
         extends l V (foldl (λ V' n, ALP fuel G p n V') V l).
Proof.
  intros Hcall l. induction l as [|n l IH]; intros V Hl Hsz; simpl.
  - split_and!; [done|by intros ? ?%elem_of_nil|done|done].
  - destruct (Hcall n V) as (H1 & H2 & H3 & H4); [apply Hl; by left|done|].
    set (V1 := ALP fuel G p n V) in *.
    destruct (IH V1) as (I1 & I2 & I3 & I4).
    { intros m Hm. apply Hl. by right. }
    { eapply Nat.le_lt_trans; [|exact Hsz]. apply subseteq_size. set_solver. }
    split_and!.
    + set_solver.
    + intros m [->|Hm]%elem_of_cons; [|by apply I2].
      apply I1, H2. by left.
    + intros y Hy HyV. destruct (decide (y ∈ V1)) as [HyV1|HyV1].
      * destruct (H3 y HyV1 HyV) as (m & Hm%list_elem_of_singleton & Hr).
        subst m. exists n. split; [by left|done].
      * destruct (I3 y Hy HyV1) as (m & Hm & Hr).
        exists m. split; [by right|done].
    + intros y z Hy HyV Hyz. destruct (decide (y ∈ V1)) as [HyV1|HyV1].
      * apply I1. by eapply H4.
      * by eapply I4.
Qed.

Lemma ALP_spec (fuel : nat) (x : term) (V : gset term) :
  x ∈ targets → size (targets ∖ V) < fuel →
  extends [x] V (ALP fuel G p x V).
Proof.
  revert x V. induction fuel as [|fuel IH]; intros x V Hx Hsz; [lia|].
  simpl. case_decide as HxV.
  - split_and!; [done| |done|done].
    by intros n ->%list_elem_of_singleton.
  - destruct (extends_foldl fuel IH (objects G x p) ({[x]} ∪ V))
      as (I1 & I2 & I3 & I4).
    { intros n Hn%elem_of_objects. by eapply edge_targets. }
    { assert (size (targets ∖ ({[x]} ∪ V)) < size (targets ∖ V)); [|lia].
      apply subset_size. set_solver. }
    split_and!.
    + set_solver.
    + intros n ->%list_elem_of_singleton. set_solver.
    + intros y Hy HyV. exists x. split; [by left|].
      destruct (decide (y = x)) as [->|Hne]; [done|].
      destruct (I3 y Hy) as (n & Hn%elem_of_objects & Hr); [set_solver|].
      by eapply rtc_l.
    + intros y z Hy HyV Hyz. destruct (decide (y = x)) as [->|Hne].
      * apply I2. by apply elem_of_objects.
      * eapply I4; [done|set_solver|done].
Qed.

Lemma elem_of_one_or_more (x y : term) :
  y ∈ one_or_more G p x ↔ tc edge x y.
Proof.
  unfold one_or_more. rewrite elem_of_elements.
  destruct (extends_foldl (S (size G)) (ALP_spec (S (size G)))
              (objects G x p) ∅) as (_ & I2 & I3 & I4).
  { intros n Hn%elem_of_objects. by eapply edge_targets. }
  { pose proof size_targets.
    assert (size (targets ∖ ∅) ≤ size targets); [|lia].
    apply subseteq_size. set_solver. }
  split.
  - intros Hy. destruct (I3 y Hy) as (n & Hn%elem_of_objects & Hr);
      [set_solver|].
    eapply tc_rtc_r; [|done]. by apply tc_once.
  - intros Htc.
    assert (∃ n, edge x n ∧ rtc edge n y) as (n & Hxn & Hr).
    { destruct Htc as [a b Hab|a b c Hab Hbc]; [by exists b|].
      exists b. split; [done|]. by apply tc_rtc. }
    assert (n ∈ foldl (λ V n, ALP (S (size G)) G p n V) ∅ (objects G x p))
      as Hn by by apply I2, elem_of_objects.
    clear Hxn Htc. induction Hr as [|a b c Hab Hbc IHr]; [done|].
    apply IHr. eapply I4; [done|set_solver|done].
Qed.

Lemma NoDup_one_or_more (x : term) : NoDup (one_or_more G p x).
Proof. apply NoDup_elements. Qed.

End Path.

(** ** What the queries select *)

Global Instance set_unfold_objects (G : gset triple) (s p o : term) :
  SetUnfoldElemOf o (objects G s p) ((s, p, o) ∈ G).
Proof. constructor. apply elem_of_objects. Qed.

Global Instance set_unfold_subjects (G : gset triple) (p o s : term) :
  SetUnfoldElemOf s (subjects G p o) ((s, p, o) ∈ G).
Proof. constructor. apply elem_of_subjects. Qed.

Global Instance set_unfold_one_or_more (G : gset triple) (p x y : term) :
  SetUnfoldElemOf y (one_or_more G p x) (tc (edge G p) x y).
Proof. constructor. apply elem_of_one_or_more. Qed.

Section Queries.

Context (G : gset triple).

Lemma elem_of_query_courses_taken (student_id : string) (c : term) :
  c ∈ query_courses_taken student_id G ↔
  ∃ course, (ONTO student_id, hasTaken, course) ∈ G ∧
            (course, courseCode, c) ∈ G.
Proof. unfold query_courses_taken. set_unfold. naive_solver. Qed.

Lemma elem_of_query_prerequisites (course_code : string) (c : term) :
  c ∈ query_prerequisites course_code G ↔ prerequisite_code G course_code c.
Proof.
  unfold query_prerequisites, match_prerequisites, prerequisite_code.
  rewrite elem_of_remove_dups. set_unfold. naive_solver.
Qed.

Lemma NoDup_query_prerequisites (course_code : string) :
  NoDup (query_prerequisites course_code G).
Proof. apply NoDup_remove_dups. Qed.

Lemma elem_of_query_direct_prerequisites (course_code : string) (c : term) :
  c ∈ query_direct_prerequisites course_code G ↔
  direct_prerequisite_code G course_code c.
Proof.
  unfold query_direct_prerequisites, direct_prerequisite_code, edge.
  set_unfold. naive_solver.
Qed.

Lemma direct_prerequisite_code_transitive (course_code : string) (c : term) :
  direct_prerequisite_code G course_code c → prerequisite_code G course_code c.
Proof.
  intros (course & prereq & Hc & He & Hp).
  exists course, prereq. split_and!; [done| |done]. by apply tc_once.
Qed.

Lemma query_prerequisites_unknown (course_code : string) :
  subjects G courseCode (Literal course_code Plain) = [] →
  query_prerequisites course_code G = [].
Proof.
  intros H. unfold query_prerequisites, match_prerequisites. by rewrite H.
Qed.

Lemma query_course_info_unknown (course_code : string) :
  subjects G courseCode (Literal course_code Plain) = [] →
  query_course_info course_code G = [].
Proof. intros H. unfold query_course_info. by rewrite H. Qed.

End Queries.

(** ** Running the methods *)

Lemma get_courses_taken_run (student_id : string)
    (self : CourseEligibilityChecker) :
  get_courses_taken student_id self =
  (Returns (list_to_set (py_str <$> query_courses_taken student_id (g self))),
   self).
Proof. reflexivity. Qed.

Lemma get_prerequisites_run (course_code : string)
    (self : CourseEligibilityChecker) :
  get_prerequisites course_code self =
  (Returns (py_str <$> query_prerequisites course_code (g self)), self).
Proof. reflexivity. Qed.

Lemma get_direct_prerequisites_run (course_code : string)
    (self : CourseEligibilityChecker) :
  get_direct_prerequisites course_code self =
  (Returns (py_str <$> query_direct_prerequisites course_code (g self)), self).
Proof. reflexivity. Qed.

Lemma can_enroll_run (student_id course_code : string)
    (self : CourseEligibilityChecker) :
  let taken : gset string :=
    list_to_set (py_str <$> query_courses_taken student_id (g self)) in
  let required : gset string :=
    list_to_set (py_str <$> query_prerequisites course_code (g self)) in
  can_enroll student_id course_code self =
  (Returns (if decide (required = ∅) then (true, [])
            else (bool_decide (size (required ∖ taken) = 0),
                  merge_sort str_le (elements (required ∖ taken)))),
   self).
Proof.
  intros taken required. unfold can_enroll.
  unfold mbind, method_bind.
  rewrite get_courses_taken_run, get_prerequisites_run.
  fold taken required. by destruct (decide (required = ∅)).
Qed.

Lemma list_to_set_sorted_elements (X : gset string) :
  list_to_set (merge_sort str_le (elements X)) = X.
Proof.
  apply set_eq. intros x.
  by rewrite elem_of_list_to_set, merge_sort_Permutation, elem_of_elements.
Qed.

(** ** Eligibility *)



(** ** Prerequisites *)





(** ** Course details *)

Section CourseInfo.

Variable py_int : string → option Z.
Variable typed_bool : string → string → bool.

Lemma get_course_info_run (course_code : string)
    (self : CourseEligibilityChecker) :
  get_course_info py_int typed_bool course_code self =
  (match query_course_info course_code (g self) with
   | [] => Returns None
   | row :: _ =>
       match py_int (py_str row.1.1.2) with
       | Some n =>
           Returns (Some
             {| info_code := course_code;
                info_name := py_str row.1.1.1;
                info_credits := n;
                info_professor := str_or_NA typed_bool row.1.2;
                info_department := str_or_NA typed_bool row.2;
                direct_prerequisites :=
                  py_str <$> query_direct_prerequisites course_code (g self);
                all_prerequisites :=
                  py_str <$> query_prerequisites course_code (g self) |})
       | None => Raises ValueError
       end
   end, self).
Proof.
  unfold get_course_info, mbind, method_bind, query.
  destruct (query_course_info course_code (g self)) as [|row rows]; [done|].
  rewrite get_direct_prerequisites_run, get_prerequisites_run.
  unfold int_. by destruct (py_int _).
Qed.

End CourseInfo.




(** ** The methods only read *)

Create HintDb frame.

Lemma read_only_ret {A : Type} (a : A) : read_only (mret a).
Proof. by intros self. Qed.

Lemma read_only_raise {A : Type} (e : exn) : read_only (@raise A e).
Proof. by intros self. Qed.

Lemma read_only_query {A : Type} (q : gset triple → list A) :
  read_only (query q).
Proof. by intros self. Qed.

Lemma read_only_bind {A B : Type} (m : method A) (f : A → method B) :
  read_only m → (∀ a, read_only (f a)) → read_only (m ≫= f).
Proof.
  intros Hm Hf self. unfold mbind, method_bind.
  specialize (Hm self). destruct (m self) as [[a|e] self']; simpl in *; subst.
  - apply Hf.
  - done.
Qed.

Lemma read_only_if_bool {A : Type} (b : bool) (m1 m2 : method A) :
  read_only m1 → read_only m2 → read_only (if b then m1 else m2).
Proof. by destruct b. Qed.

Lemma read_only_if_decide {A : Type} (P : Prop) `{Decision P}
    (m1 m2 : method A) :
  read_only m1 → read_only m2 → read_only (if decide P then m1 else m2).
Proof. by destruct (decide P). Qed.

Lemma read_only_for_each {A B : Type} (body : B → A → method B) (acc : B)
    (l : list A) :
  (∀ acc x, read_only (body acc x)) → read_only (for_each body acc l).
Proof.
  intros Hbody. revert acc. induction l as [|x l IH]; intros acc; simpl.
  - apply read_only_ret.
  - apply read_only_bind; [apply Hbody|done].
Qed.

Lemma read_only_int_ (py_int : string → option Z) (t : term) :
  read_only (int_ py_int t).
Proof.
  unfold int_. destruct (py_int _); [apply read_only_ret|apply read_only_raise].
Qed.

#[export] Hint Resolve read_only_ret read_only_raise read_only_query
  read_only_bind read_only_if_bool read_only_if_decide read_only_for_each
  read_only_int_ : frame.

Lemma read_only_get_courses_taken (student_id : string) :
  read_only (get_courses_taken student_id).
Proof. unfold get_courses_taken. auto with frame. Qed.

Lemma read_only_get_prerequisites (course_code : string) :
  read_only (get_prerequisites course_code).
Proof. unfold get_prerequisites. auto with frame. Qed.

Lemma read_only_get_direct_prerequisites (course_code : string) :
  read_only (get_direct_prerequisites course_code).
Proof. unfold get_direct_prerequisites. auto with frame. Qed.

#[export] Hint Resolve read_only_get_courses_taken read_only_get_prerequisites
  read_only_get_direct_prerequisites : frame.

Lemma read_only_can_enroll (student_id course_code : string) :
  read_only (can_enroll student_id course_code).
Proof. unfold can_enroll. auto 6 with frame. Qed.

#[export] Hint Resolve read_only_can_enroll : frame.

Lemma read_only_get_available_courses (py_int : string → option Z)
    (student_id : string) :
  read_only (get_available_courses py_int student_id).
Proof.
  unfold get_available_courses.
  apply read_only_bind; [auto with frame|]. intros results.
  apply read_only_bind; [auto with frame|]. intros courses_taken.
  apply read_only_for_each. intros available row.
  apply read_only_if_decide; [auto with frame|].
  apply read_only_bind; [auto with frame|]. intros [can_take missing].
  auto 6 with frame.
Qed.

Lemma read_only_get_professor_workload : read_only get_professor_workload.
Proof. unfold get_professor_workload. auto 6 with frame. Qed.

Lemma read_only_get_course_info (py_int : string → option Z)
    (typed_bool : string → string → bool) (course_code : string) :
  read_only (get_course_info py_int typed_bool course_code).
Proof.
  unfold get_course_info.
  apply read_only_bind; [auto with frame|]. intros [|row rows];
    auto 8 with frame.
Qed.

#[export] Hint Resolve read_only_get_available_courses
  read_only_get_professor_workload read_only_get_course_info : frame.

Lemma read_only_perform (py_int : string → option Z)
    (typed_bool : string → string → bool) (c : call) :
  read_only (perform py_int typed_bool c).
Proof. destruct c; simpl; auto with frame. Qed.

(** C8.  Whatever calls of the seven query methods a client makes, in
    whatever order, each call leaves the checker, and so the triples of its
    graph, as it found them. *)
Theorem queries_leave_graph_unchanged (py_int : string → option Z)
    (typed_bool : string → string → bool) (calls : list call)
    (self : CourseEligibilityChecker) :
  Forall (λ r, g r.2 = g self) (session py_int typed_bool calls self).
Proof.
  induction calls as [|c calls IH]; simpl; [constructor|].
  rewrite (read_only_perform py_int typed_bool c self).
  constructor; [|exact IH].
  simpl. by rewrite (read_only_perform py_int typed_bool c self).
Qed.

(** ** The workload report *)

Section Grouping.

Context {A K : Type} `{EqDecision K} (key : A → K).

Lemma group_count_keys (sols : list A) :
  (group_count key sols).*1 = remove_dups (key <$> sols).
Proof.
  unfold group_count. rewrite <- list_fmap_compose.
  apply list_fmap_id.
Qed.

Lemma elem_of_group_count (sols : list A) (k : K) (n : nat) :
  (k, n) ∈ group_count key sols ↔
  (∃ s, s ∈ sols ∧ key s = k) ∧
  n = length (filter (λ s, key s = k) sols).
Proof.
  unfold group_count. rewrite list_elem_of_fmap.
  setoid_rewrite elem_of_remove_dups.
  setoid_rewrite list_elem_of_fmap. naive_solver.
Qed.

Lemma sum_indicator (k : K) (ks : list K) :
  NoDup ks → k ∈ ks →
  sum_list_with (λ k', if decide (k = k') then 1 else 0) ks = 1.
Proof.
  intros Hnd. induction Hnd as [|k' ks Hk' Hnd IH]; intros Hin.
  - by apply elem_of_nil in Hin.
  - simpl. destruct (decide (k = k')) as [->|Hne].
    + assert (sum_list_with (λ k'', if decide (k' = k'') then 1 else 0) ks = 0)
        as ->; [|done].
      clear IH Hin Hnd. induction ks as [|a ks IH]; [done|].
      simpl. rewrite decide_False; [|set_solver]. apply IH. set_solver.
    + apply IH. set_solver.
Qed.

Lemma sum_group_sizes_cons (s : A) (sols : list A) (ks : list K) :
  sum_list_with (λ k, length (filter (λ s', key s' = k) (s :: sols))) ks =
  sum_list_with (λ k, if decide (key s = k) then 1 else 0) ks +
  sum_list_with (λ k, length (filter (λ s', key s' = k) sols)) ks.
Proof.
  induction ks as [|k ks IHk]; [done|]. simpl. rewrite IHk.
  rewrite filter_cons. destruct (decide (key s = k)); simpl; lia.
Qed.

(** The sizes of the groups add up to the number of solutions. *)
Lemma sum_group_sizes (sols : list A) (ks : list K) :
  NoDup ks → (∀ s, s ∈ sols → key s ∈ ks) →
  sum_list_with (λ k, length (filter (λ s, key s = k) sols)) ks =
  length sols.
Proof.
  intros Hnd. induction sols as [|s sols IH]; intros Hks.
  - clear. induction ks as [|k ks IHk]; [done|]. simpl. exact IHk.
  - rewrite sum_group_sizes_cons.
    rewrite (sum_indicator (key s) ks Hnd) by (apply Hks; by left).
    rewrite IH by (intros; apply Hks; by right). done.
Qed.

Lemma sum_list_with_snd_fmap (f : K → nat) (ks : list K) :
  sum_list_with snd ((λ k, (k, f k)) <$> ks) = sum_list_with f ks.
Proof. induction ks as [|k ks IH]; [done|]. simpl. f_equal. exact IH. Qed.

Lemma sum_group_count (sols : list A) :
  sum_list_with snd (group_count key sols) = length sols.
Proof.
  unfold group_count. rewrite sum_list_with_snd_fmap.
  apply sum_group_sizes; [apply NoDup_remove_dups|].
  intros s Hs. apply elem_of_remove_dups, list_elem_of_fmap. eauto.
Qed.

End Grouping.

Global Instance count_ge_trans {K : Type} : Transitive (@count_ge K).
Proof. intros a b c. unfold count_ge. lia. Qed.

Global Instance count_ge_total {K : Type} : Total (@count_ge K).
Proof. intros a b. unfold count_ge. lia. Qed.

Lemma for_each_append {A B : Type} (f : A → B) (l : list A) (acc : list B)
    (self : CourseEligibilityChecker) :
  for_each (λ acc' x, mret (acc' ++ [f x])) acc l self =
  (Returns (acc ++ (f <$> l)), self).
Proof.
  revert acc. induction l as [|x l IH]; intros acc; simpl.
  - by rewrite app_nil_r.
  - unfold mbind, method_bind, mret, method_ret at 1.
    rewrite IH. by rewrite <- app_assoc.
Qed.

Lemma get_professor_workload_run (self : CourseEligibilityChecker) :
  get_professor_workload self =
  (Returns (workload_entry_of <$> query_workload (g self)), self).
Proof.
  unfold get_professor_workload, mbind, method_bind, query.
  apply (for_each_append workload_entry_of).
Qed.

Lemma total_workload_rows (rows : list (term * term * nat)) :
  total_workload (workload_entry_of <$> rows) =
  Z.of_nat (sum_list_with snd rows).
Proof.
  induction rows as [|row rows IH]; [done|].
  change (total_workload (workload_entry_of <$> row :: rows))
    with (Z.of_nat row.2 + total_workload (workload_entry_of <$> rows))%Z.
  rewrite IH. simpl. lia.
Qed.

Lemma query_workload_Permutation (G : gset triple) :
  query_workload G ≡ₚ group_count workload_key (match_workload G).
Proof. apply merge_sort_Permutation. Qed.

(** The report adds up to the number of solutions of the pattern. *)
Lemma total_workload_solutions (G : gset triple) :
  total_workload (workload_entry_of <$> query_workload G) =
  Z.of_nat (length (match_workload G)).
Proof.
  rewrite total_workload_rows. f_equal.
  rewrite (sum_list_with_Permutation_proper _ _ _ (query_workload_Permutation G)).
  apply sum_group_count.
Qed.


(** *** The report against the number of courses *)

Lemma length_one_unique {A : Type} (l : list A) (x y : A) :
  length l = 1 → x ∈ l → y ∈ l → x = y.
Proof.
  destruct l as [|a [|b l]]; [done| |done].
  intros _ Hx%list_elem_of_singleton Hy%list_elem_of_singleton. congruence.
Qed.

Lemma length_one_inhabited {A : Type} (l : list A) :
  length l = 1 → ∃ x, x ∈ l.
Proof. destruct l as [|a l]; [done|]. intros _. exists a. by left. Qed.

Section WorkloadTotal.

Context (G : gset triple).

Lemma elem_of_named_departments (prof dept deptName : term) :
  (dept, deptName) ∈ named_departments G prof ↔
  (prof, worksInDepartment, dept) ∈ G ∧ (dept, departmentName, deptName) ∈ G.
Proof. unfold named_departments. set_unfold. naive_solver. Qed.

Lemma elem_of_match_workload (prof profName dept deptName course : term) :
  (prof, profName, dept, deptName, course) ∈ match_workload G ↔
  (prof, rdf_type, Professor) ∈ G ∧
  (prof, professorName, profName) ∈ G ∧
  (prof, worksInDepartment, dept) ∈ G ∧
  (dept, departmentName, deptName) ∈ G ∧
  (course, taughtBy, prof) ∈ G.
Proof. unfold match_workload. set_unfold. naive_solver. Qed.

(** The graph is a set, so no solution is found twice. *)
Lemma NoDup_match_workload : NoDup (match_workload G).
Proof.
  unfold match_workload.
  apply NoDup_bind; [|intros prof _|apply NoDup_subjects].
  { set_unfold. naive_solver. }
  apply NoDup_bind; [|intros profName _|apply NoDup_objects].
  { set_unfold. naive_solver. }
  apply NoDup_bind; [|intros dept _|apply NoDup_objects].
  { set_unfold. naive_solver. }
  apply NoDup_bind; [|intros deptName _|apply NoDup_objects].
  { set_unfold. naive_solver. }
  apply NoDup_bind; [|intros course _|apply NoDup_subjects].
  { set_unfold. naive_solver. }
  apply NoDup_singleton.
Qed.

Hypothesis Hstaffed : fully_staffed G.

Lemma staffed_course (course prof : term) :
  (course, taughtBy, prof) ∈ G →
  (course, rdf_type, Course) ∈ G ∧
  (prof, rdf_type, Professor) ∈ G ∧
  length (objects G course taughtBy) = 1 ∧
  length (objects G prof professorName) = 1 ∧
  length (named_departments G prof) = 1.
Proof.
  intros Hin. destruct Hstaffed as [Hone Hall].
  destruct (Hall _ Hin eq_refl) as (Hc & Hp & Hn & Hd). simpl in *.
  split_and!; try done.
  rewrite Forall_forall in Hone. by apply Hone, elem_of_subjects.
Qed.

Lemma solution_of_course (s1 s2 : workload_solution) :
  s1 ∈ match_workload G → s2 ∈ match_workload G → s1.2 = s2.2 → s1 = s2.
Proof.
  destruct s1 as [[[[p1 n1] d1] dn1] c1], s2 as [[[[p2 n2] d2] dn2] c2].
  intros (_ & Hn1 & Hw1 & Hd1 & Ht1)%elem_of_match_workload
         (_ & Hn2 & Hw2 & Hd2 & Ht2)%elem_of_match_workload Hc.
  simpl in Hc. subst c2.
  destruct (staffed_course c1 p1 Ht1) as (_ & _ & Hone & Hname & Hdept).
  assert (p1 = p2) as <-.
  { apply (length_one_unique _ _ _ Hone); by apply elem_of_objects. }
  assert (n1 = n2) as <-.
  { apply (length_one_unique _ _ _ Hname); by apply elem_of_objects. }
  assert ((d1, dn1) = (d2, dn2)) as Hpair.
  { apply (length_one_unique _ _ _ Hdept);
      by apply elem_of_named_departments. }
  by injection Hpair as <- <-.
Qed.

Lemma course_of_solution (course : term) :
  course ∈ snd <$> match_workload G ↔ course ∈ subjects G rdf_type Course.
Proof.
  rewrite list_elem_of_fmap, elem_of_subjects. split.
  - intros ([[[[p n] d] dn] c] & -> & Hs). simpl.
    apply elem_of_match_workload in Hs as (_ & _ & _ & _ & Ht).
    by apply staffed_course in Ht as (Hc & _).
  - intros Hc. destruct Hstaffed as [Hone _].
    rewrite Forall_forall in Hone.
    destruct (length_one_inhabited _ (Hone course (proj2 (elem_of_subjects _ _ _ _) Hc)))
      as (p & Ht%elem_of_objects).
    destruct (staffed_course course p Ht) as (_ & Hp & _ & Hname & Hdept).
    destruct (length_one_inhabited _ Hname) as (n & Hn%elem_of_objects).
    destruct (length_one_inhabited _ Hdept)
      as ([d dn] & (Hw & Hd)%elem_of_named_departments).
    exists (p, n, d, dn, course). split; [done|].
    by apply elem_of_match_workload.
Qed.

Lemma length_match_workload_staffed :
  length (match_workload G) = total_course_count G.
Proof.
  unfold total_course_count.
  transitivity (length (snd <$> match_workload G));
    [by rewrite length_fmap|].
  apply Permutation_length, NoDup_Permutation.
  - apply NoDup_fmap_2_strong; [|apply NoDup_match_workload].
    intros s1 s2. apply solution_of_course.
  - apply NoDup_subjects.
  - apply course_of_solution.
Qed.

End WorkloadTotal.

(** C4.  The counts of the report add up to the number of solutions of the
    workload pattern; in a fully staffed graph that is the number of
    courses. *)
Theorem workload_total (self : CourseEligibilityChecker) :
  ∃ report : list workload_entry,
    get_professor_workload self = (Returns report, self) ∧
    total_workload report = Z.of_nat (length (match_workload (g self))) ∧
    (fully_staffed (g self) →
     total_workload report = Z.of_nat (total_course_count (g self))).
Proof.
  exists (workload_entry_of <$> query_workload (g self)). split_and!.
  - apply get_professor_workload_run.
  - apply total_workload_solutions.
  - intros Hstaffed. rewrite total_workload_solutions.
    by rewrite length_match_workload_staffed.
Qed.

(** The sample catalogue is fully staffed and has three courses. *)
Lemma workload_total_witness :
  ∃ report : list workload_entry,
    get_professor_workload {| g := catalogue |} =
      (Returns report, {| g := catalogue |}) ∧
    total_workload report = 3%Z.
Proof.
  destruct (workload_total {| g := catalogue |}) as (report & Hrun & _ & Htotal).
  exists report. split; [exact Hrun|].
  rewrite Htotal; [by vm_compute|].
  apply (bool_decide_unpack _). by vm_compute.
Defined.

(** A course nobody teaches is in no solution of the pattern: the counts
    add up to one where the graph has two courses. *)
Lemma workload_total_misses_untaught_course :
  ∃ report : list workload_entry,
    get_professor_workload {| g := untaught |} =
      (Returns report, {| g := untaught |}) ∧
    report = [{| professor := "Ada"; department := "Computer Science";
                 courses := 1 |}] ∧
    total_course_count untaught = 2 ∧
    total_workload report ≠ Z.of_nat (total_course_count untaught).
Proof.
  eexists. split; [apply get_professor_workload_run|].
  split_and!; by vm_compute.
Qed.

(** ** The course listing *)

Lemma can_enroll_offered (G : gset triple) (student_id course_code : string) :
  (can_enroll student_id course_code {| g := G |}).1 =
  Returns
    (if decide (required G course_code = ∅) then (true, [])
     else (bool_decide (size (required G course_code ∖ completed G student_id)
                        = 0),
           merge_sort str_le
             (elements (required G course_code ∖ completed G student_id)))).
Proof. by rewrite can_enroll_run. Qed.

(** [can_enroll] says yes exactly when the second half of [offered] holds. *)
Lemma can_enroll_true_iff (student_id course_code : string)
    (self : CourseEligibilityChecker) :
  (∃ missing, can_enroll student_id course_code self =
              (Returns (true, missing), self)) ↔
  (required (g self) course_code = ∅ ∨
   required (g self) course_code ∖ completed (g self) student_id = ∅).
Proof.
  rewrite can_enroll_run. simpl.
  fold (required (g self) course_code) (completed (g self) student_id).
  destruct (decide (required (g self) course_code = ∅)) as [He|Hne].
  - split; [by left|]. intros _. by exists [].
  - split.
    + intros (missing & Heq). right.
      injection Heq as Hb _. apply bool_decide_eq_true in Hb.
      by apply size_empty_iff, leibniz_equiv_iff in Hb.
    + intros [?|He]; [done|]. eexists.
      rewrite bool_decide_eq_true_2; [done|]. rewrite He. done.
Qed.

Section Listing.

Variable py_int : string → option Z.

Lemma elem_of_query_courses (G : gset triple) (c n k : term) :
  (c, n, k) ∈ query_courses G ↔
  ∃ course, (course, rdf_type, Course) ∈ G ∧
            (course, courseCode, c) ∈ G ∧
            (course, courseName, n) ∈ G ∧
            (course, creditHours, k) ∈ G.
Proof. unfold query_courses. set_unfold. naive_solver. Qed.

(** A loop whose body appends [f x] for the rows that pass a test, skips
    the others and raises when [f] has no value: the rows that pass, in
    order, each mapped by [f]. *)
Lemma for_each_filter_mapM {A B : Type}
    (body : list B → A → method (list B)) (P : A → Prop)
    `{∀ x, Decision (P x)} (f : A → option B)
    (self : CourseEligibilityChecker) :
  (∀ acc x,
     body acc x self =
     (if decide (P x) then
        match f x with
        | Some d => Returns (acc ++ [d])
        | None => Raises ValueError
        end
      else Returns acc, self)) →
  ∀ rows acc,
    for_each body acc rows self =
    (match mapM f (filter P rows) with
     | Some l => Returns (acc ++ l)
     | None => Raises ValueError
     end, self).
Proof.
  intros Hbody rows. induction rows as [|x rows IH]; intros acc.
  - simpl. by rewrite app_nil_r.
  - cbn [for_each]. unfold mbind at 1, method_bind at 1.
    rewrite Hbody, filter_cons.
    destruct (decide (P x)) as [HP|HP]; [|apply IH].
    cbn [mapM]. destruct (f x) as [d|]; [|done].
    rewrite IH. cbn.
    destruct (mapM f (filter P rows)) as [l|]; cbn; [|done].
    by rewrite <- app_assoc.
Qed.

(** One turn of the loop of [get_available_courses]. *)
Lemma available_body (student_id : string) (self : CourseEligibilityChecker)
    (available : list available_course) (row : term * term * term) :
  (let course_code := py_str row.1.1 in
   if decide (course_code ∈ completed (g self) student_id)
   then mret available
   else
     '(can_take, missing) ← can_enroll student_id course_code;
     if (can_take : bool) then
       n ← int_ py_int row.2;
       mret (available ++
             [{| code := course_code; name := py_str row.1.2;
                 credits := n |}])
     else mret available) self =
  (if decide (offered (g self) student_id row) then
     match available_course_of py_int row with
     | Some d => Returns (available ++ [d])
     | None => Raises ValueError
     end
   else Returns available, self).
Proof.
  cbn zeta.
  destruct (decide (py_str row.1.1 ∈ completed (g self) student_id))
    as [Hin|Hnotin].
  { rewrite decide_False by (intros [? _]; done). done. }
  unfold mbind, method_bind. rewrite can_enroll_run. cbn zeta.
  fold (required (g self) (py_str row.1.1)) (completed (g self) student_id).
  unfold available_course_of, int_.
  destruct (decide (required (g self) (py_str row.1.1) = ∅)) as [He|Hne].
  - rewrite decide_True by (split; [done|by left]).
    by destruct (py_int (py_str row.2)).
  - destruct (decide (size (required (g self) (py_str row.1.1)
                            ∖ completed (g self) student_id) = 0))
      as [Hz|Hnz].
    + rewrite bool_decide_eq_true_2 by done.
      rewrite decide_True.
      2:{ split; [done|right].
          by apply leibniz_equiv_iff, size_empty_iff. }
      by destruct (py_int (py_str row.2)).
    + rewrite bool_decide_eq_false_2 by done.
      rewrite decide_False; [done|].
      intros [_ [?|He]]; [done|]. apply Hnz. by rewrite He.
Qed.

Lemma get_available_courses_run (student_id : string)
    (self : CourseEligibilityChecker) :
  get_available_courses py_int student_id self =
  (match mapM (available_course_of py_int)
           (filter (offered (g self) student_id) (query_courses (g self))) with
   | Some l => Returns l
   | None => Raises ValueError
   end, self).
Proof.
  unfold get_available_courses, mbind, method_bind, query.
  rewrite get_courses_taken_run.
  fold (completed (g self) student_id).
  apply (for_each_filter_mapM _ (offered (g self) student_id)
           (available_course_of py_int) self
           (available_body student_id self) (query_courses (g self)) []).
Qed.

End Listing.

Lemma elem_of_mapM_Some {A B : Type} (f : A → option B) (l : list A)
    (k : list B) :
  mapM f l = Some k → ∀ y, y ∈ k ↔ ∃ x, x ∈ l ∧ f x = Some y.
Proof.
  intros H%mapM_Some_1. induction H as [|x y l k Hxy H IH]; intros d.
  - split; [by intros ?%elem_of_nil|]. by intros (x & ?%elem_of_nil & _).
  - rewrite elem_of_cons, IH. split.
    + intros [->|(x' & Hx' & Hf)].
      * exists x. split; [by left|done].
      * exists x'. split; [by right|done].
    + intros (x' & [->|Hx']%elem_of_cons & Hf).
      * left. congruence.
      * right. by exists x'.
Qed.




(** ** Course details, field by field *)

Lemma elem_of_optional {A : Type} (l : list A) (v : option A) :
  v ∈ optional l ↔ optionally (λ x, x ∈ l) v.
Proof.
  destruct l as [|a l].
  - simpl. rewrite list_elem_of_singleton. destruct v as [x|]; simpl.
    + split; [done|]. by intros ?%elem_of_nil.
    + split; [|done]. intros _ x. apply not_elem_of_nil.
  - unfold optional. rewrite list_elem_of_fmap. destruct v as [x|]; simpl.
    + split; [by intros (y & [= ->] & Hy)|]. intros Hx. by exists x.
    + split; [by intros (y & ? & _)|]. intros Hno.
      destruct (Hno a). by left.
Qed.

Section Rows.

Context (G : gset triple).

Lemma elem_of_professor_names (course n : term) :
  n ∈ (prof ← objects G course taughtBy; objects G prof professorName) ↔
  professor_name_of G course n.
Proof. unfold professor_name_of. set_unfold. naive_solver. Qed.

Lemma elem_of_department_names (course n : term) :
  n ∈ (dept ← objects G course belongsToDepartment;
       objects G dept departmentName) ↔
  department_name_of G course n.
Proof. unfold department_name_of. set_unfold. naive_solver. Qed.

Lemma optionally_iff {A : Type} (P Q : A → Prop) (v : option A) :
  (∀ x, P x ↔ Q x) → optionally P v ↔ optionally Q v.
Proof.
  intros HPQ. destruct v as [x|]; simpl; [done|].
  split; intros H x Hx; apply (H x); by apply HPQ.
Qed.

Lemma elem_of_query_course_info (course_code : string)
    (cname cred : term) (prof dept : option term) :
  (cname, cred, prof, dept) ∈ query_course_info course_code G ↔
  ∃ course,
    (course, courseCode, Literal course_code Plain) ∈ G ∧
    (course, courseName, cname) ∈ G ∧
    (course, creditHours, cred) ∈ G ∧
    optionally (professor_name_of G course) prof ∧
    optionally (department_name_of G course) dept.
Proof.
  unfold query_course_info.
  rewrite list_elem_of_bind. apply exist_proper. intros course.
  rewrite list_elem_of_bind, elem_of_subjects. split.
  - intros ((n & (k & (p & (d & Hrow & Hd)%list_elem_of_bind & Hp)
                      %list_elem_of_bind & Hk)%list_elem_of_bind & Hn) & Hc).
    apply list_elem_of_singleton in Hrow. injection Hrow as -> -> -> ->.
    apply elem_of_objects in Hn, Hk.
    apply elem_of_optional in Hp, Hd. split_and!; try done.
    + by apply (optionally_iff _ _ _ (elem_of_professor_names course)).
    + by apply (optionally_iff _ _ _ (elem_of_department_names course)).
  - intros (Hc & Hn & Hk & Hp & Hd). split; [|done].
    exists cname. split; [|by apply elem_of_objects].
    apply list_elem_of_bind. exists cred. split; [|by apply elem_of_objects].
    apply list_elem_of_bind. exists prof. split.
    2:{ apply elem_of_optional.
        by apply (optionally_iff _ _ _ (elem_of_professor_names course)). }
    apply list_elem_of_bind. exists dept. split.
    2:{ apply elem_of_optional.
        by apply (optionally_iff _ _ _ (elem_of_department_names course)). }
    by apply list_elem_of_singleton.
Qed.

Lemma optionally_inhabited {A : Type} (l : list A) :
  ∃ v, optionally (λ x, x ∈ l) v.
Proof.
  destruct l as [|a l].
  - exists None. intros x. apply not_elem_of_nil.
  - exists (Some a). by left.
Qed.

(** A course with a name and credits gives the query a row. *)
Lemma query_course_info_inhabited (course_code : string)
    (course cname cred : term) :
  (course, courseCode, Literal course_code Plain) ∈ G →
  (course, courseName, cname) ∈ G →
  (course, creditHours, cred) ∈ G →
  query_course_info course_code G ≠ [].
Proof.
  intros Hc Hn Hk Hnil.
  destruct (optionally_inhabited
              (prof ← objects G course taughtBy;
               objects G prof professorName)) as [p Hp].
  destruct (optionally_inhabited
              (dept ← objects G course belongsToDepartment;
               objects G dept departmentName)) as [d Hd].
  assert ((cname, cred, p, d) ∈ query_course_info course_code G) as Hin.
  { apply elem_of_query_course_info. exists course. split_and!; try done.
    - by apply (optionally_iff _ _ _ (elem_of_professor_names course)).
    - by apply (optionally_iff _ _ _ (elem_of_department_names course)). }
  rewrite Hnil in Hin. by apply elem_of_nil in Hin.
Qed.

End Rows.




(** * Further properties of the methods *)

(** ** The order of [sorted] *)

Lemma string_compare_refl (s : string) : String.compare s s = Eq.
Proof.
  induction s as [|a s IH]; [done|]. simpl.
  unfold Ascii.compare. by rewrite N.compare_refl.
Qed.

Lemma string_compare_trans (c : comparison) (s1 s2 s3 : string) :
  String.compare s1 s2 = c → String.compare s2 s3 = c →
  String.compare s1 s3 = c.
Proof.
  revert s2 s3. induction s1 as [|a1 s1 IH]; intros [|a2 s2] [|a3 s3];
    simpl; try congruence.
  unfold Ascii.compare.
  destruct (N.compare_spec (N_of_ascii a1) (N_of_ascii a2)) as [E12|L12|G12];
    destruct (N.compare_spec (N_of_ascii a2) (N_of_ascii a3)) as [E23|L23|G23];
    intros H1 H2; try congruence.
  - rewrite E12, E23, N.compare_refl. by apply (IH s2 s3).
  - rewrite (proj2 (N.compare_lt_iff _ _)) by lia. done.
  - rewrite (proj2 (N.compare_gt_iff _ _)) by lia. done.
  - rewrite (proj2 (N.compare_lt_iff _ _)) by lia. done.
  - rewrite (proj2 (N.compare_lt_iff _ _)) by lia. done.
  - rewrite (proj2 (N.compare_gt_iff _ _)) by lia. done.
  - rewrite (proj2 (N.compare_gt_iff _ _)) by lia. done.
Qed.

Lemma string_compare_Eq_l (s1 s2 s3 : string) :
  String.compare s1 s2 = Eq → String.compare s1 s3 = String.compare s2 s3.
Proof. by intros ->%String.compare_eq_iff. Qed.

Global Instance str_le_trans : Transitive str_le.
Proof.
  intros s1 s2 s3. unfold str_le, String.leb.
  destruct (String.compare s1 s2) eqn:H12; [|..|done];
    destruct (String.compare s2 s3) eqn:H23; try done; intros _ _.
  - by rewrite (string_compare_trans Eq s1 s2 s3).
  - by rewrite (string_compare_Eq_l s1 s2 s3), H23.
  - apply String.compare_eq_iff in H23 as <-. by rewrite H12.
  - by rewrite (string_compare_trans Lt s1 s2 s3).
Qed.

Global Instance str_le_total : Total str_le.
Proof. intros s1 s2. apply String.leb_total. Qed.

(** ** Eligibility, continued *)


(** ** What the three look-ups select *)



(** ** Completing more courses *)

Lemma tc_iff {A : Type} (R R' : relation A) :
  (∀ a b, R a b ↔ R' a b) → ∀ a b, tc R a b ↔ tc R' a b.
Proof.
  intros HR a b. split; intros H.
  - induction H as [a b Hab|a b c Hab _ IH];
      [apply tc_once|eapply tc_l; [|exact IH]]; by apply HR.
  - induction H as [a b Hab|a b c Hab _ IH];
      [apply tc_once|eapply tc_l; [|exact IH]]; by apply HR.
Qed.

Section MoreTaken.

Context (G T : gset triple).
Hypothesis HT : set_Forall (λ t : triple, t.1.2 = hasTaken) T.

Lemma elem_of_union_taken (s p o : term) :
  p ≠ hasTaken → (s, p, o) ∈ G ∪ T ↔ (s, p, o) ∈ G.
Proof.
  intros Hp. rewrite elem_of_union. split; [|by left].
  intros [?|Hin]; [done|]. destruct Hp. exact (HT _ Hin).
Qed.

Lemma prerequisite_code_union_taken (course_code : string) (c : term) :
  prerequisite_code (G ∪ T) course_code c ↔ prerequisite_code G course_code c.
Proof.
  unfold prerequisite_code.
  assert (∀ a b, tc (edge (G ∪ T) hasPrerequisite) a b ↔
                 tc (edge G hasPrerequisite) a b) as Htc.
  { apply tc_iff. intros a b. unfold edge. by apply elem_of_union_taken. }
  setoid_rewrite Htc.
  split; intros (course & prereq & H1 & H2 & H3); exists course, prereq;
    (split_and!; [|done|]); by apply elem_of_union_taken.
Qed.

Lemma required_union_taken (course_code : string) :
  required (G ∪ T) course_code = required G course_code.
Proof.
  apply set_eq. intros s. unfold required.
  rewrite !elem_of_list_to_set, !list_elem_of_fmap.
  by setoid_rewrite elem_of_query_prerequisites;
    setoid_rewrite prerequisite_code_union_taken.
Qed.

Lemma completed_union_taken (student_id : string) :
  completed G student_id ⊆ completed (G ∪ T) student_id.
Proof.
  intros s. unfold completed.
  rewrite !elem_of_list_to_set, !list_elem_of_fmap.
  setoid_rewrite elem_of_query_courses_taken.
  intros (c & -> & course & H1 & H2). exists c. split; [done|].
  exists course. split; apply elem_of_union; by left.
Qed.

End MoreTaken.

Lemma can_enroll_missing (G : gset triple) (student_id course_code : string)
    (ok : bool) (missing : list string) :
  can_enroll student_id course_code {| g := G |} =
    (Returns (ok, missing), {| g := G |}) →
  (ok = true ↔ required G course_code ∖ completed G student_id = ∅) ∧
  ∀ s, s ∈ missing ↔ s ∈ required G course_code ∖ completed G student_id.
Proof.
  rewrite can_enroll_run. simpl.
  fold (completed G student_id) (required G course_code).
  destruct (decide (required G course_code = ∅)) as [He|Hne];
    intros [= <- <-].
  - rewrite He. split; [set_solver|]. intros s. set_solver.
  - split.
    + rewrite bool_decide_eq_true, size_empty_iff. apply leibniz_equiv_iff.
    + intros s. by rewrite merge_sort_Permutation, elem_of_elements.
Qed.





(** ** Chains and cycles of prerequisites *)




Lemma cyclic_has_cycle :
  tc (edge cyclic hasPrerequisite) (ONTO "Course101") (ONTO "Course101").
Proof.
  apply (tc_l _ _ (ONTO "Course201")); [|apply tc_once]; by vm_compute.
Defined.


(** ** The course listing, continued *)

Lemma elem_of_available (py_int : string → option Z) (student_id : string)
    (self : CourseEligibilityChecker) (l : list available_course)
    (d : available_course) :
  get_available_courses py_int student_id self = (Returns l, self) →
  d ∈ l →
  ∃ row, row ∈ query_courses (g self) ∧
         offered (g self) student_id row ∧
         code d = py_str row.1.1.
Proof.
  rewrite get_available_courses_run. intros Hrun Hd.
  destruct (mapM _ _) as [l'|] eqn:Hmap; [|done].
  injection Hrun as <-.
  apply (elem_of_mapM_Some _ _ _ Hmap) in Hd
    as (row & [Hoff Hrow]%list_elem_of_filter & Hd).
  exists row. split_and!; [done..|].
  unfold available_course_of in Hd.
  destruct (py_int _); [|done]. by injection Hd as <-.
Qed.

(** X7.  For every course [get_available_courses] lists, [can_enroll]
    returns exactly [(True, [])] for the same student. *)
Theorem available_courses_are_enrollable (py_int : string → option Z)
    (student_id : string) (self : CourseEligibilityChecker)
    (l : list available_course) :
  get_available_courses py_int student_id self = (Returns l, self) →
  ∀ d, d ∈ l →
       can_enroll student_id (code d) self = (Returns (true, []), self).
Proof.
  intros Hrun d Hd.
  destruct (elem_of_available _ _ _ _ _ Hrun Hd) as (row & _ & [_ Hoff] & ->).
  rewrite can_enroll_run. simpl.
  fold (completed (g self) student_id) (required (g self) (py_str row.1.1)).
  destruct (decide (required (g self) (py_str row.1.1) = ∅)) as [He|Hne];
    [done|].
  destruct Hoff as [?|Hempty]; [done|]. rewrite Hempty.
  by rewrite size_empty, elements_empty.
Qed.

Lemma available_courses_are_enrollable_witness :
  can_enroll "Student001" "CS-201" {| g := catalogue |} =
  (Returns (true, []), {| g := catalogue |}).
Proof.
  apply (available_courses_are_enrollable decimal_int "Student001"
           {| g := catalogue |}
           [{| code := "CS-201"; name := "Data Structures"; credits := 4 |}]
           ltac:(rewrite get_available_courses_run;
                 apply (f_equal (λ v, (v, _))); by vm_compute)
           {| code := "CS-201"; name := "Data Structures"; credits := 4 |}).
  by left.
Defined.



(** ** The workload report, continued *)

(** X9.  Every entry of the report counts at least one course, and a pair
    of names has an entry exactly when some [:Professor] with that name,
    working in a department with that name, teaches a course: who teaches
    nothing, or has no named department, is absent. *)
Theorem workload_lists_who_teaches (self : CourseEligibilityChecker) :
  ∃ report : list workload_entry,
    get_professor_workload self = (Returns report, self) ∧
    (∀ e, e ∈ report → (1 ≤ courses e)%Z) ∧
    (∀ p d : string,
       (∃ e, e ∈ report ∧ professor e = p ∧ department e = d) ↔
       (∃ prof profName dept deptName course,
          (prof, rdf_type, Professor) ∈ g self ∧
          (prof, professorName, profName) ∈ g self ∧
          (prof, worksInDepartment, dept) ∈ g self ∧
          (dept, departmentName, deptName) ∈ g self ∧
          (course, taughtBy, prof) ∈ g self ∧
          py_str profName = p ∧ py_str deptName = d)).
Proof.
  exists (workload_entry_of <$> query_workload (g self)).
  split; [apply get_professor_workload_run|].
  assert (∀ k n, (k, n) ∈ query_workload (g self) ↔
                 (∃ s, s ∈ match_workload (g self) ∧ workload_key s = k) ∧
                 n = length (filter (λ s, workload_key s = k)
                               (match_workload (g self)))) as Hrows.
  { intros k n. rewrite (query_workload_Permutation (g self)).
    apply elem_of_group_count. }
  split.
  - intros e ([k n] & -> & Hin)%list_elem_of_fmap.
    apply Hrows in Hin as [(s & Hs & Hk) ->]. simpl.
    assert (s ∈ filter (λ s, workload_key s = k) (match_workload (g self)))
      as Hf by (by apply list_elem_of_filter).
    destruct (filter _ _); [by apply elem_of_nil in Hf|]. simpl. lia.
  - intros p d. split.
    + intros (e & ([[pn dn] n] & -> & Hin)%list_elem_of_fmap & <- & <-).
      apply Hrows in Hin as [([[[[prof pn'] dept] dn'] course] & Hs & Hk) _].
      injection Hk as -> ->.
      apply elem_of_match_workload in Hs as (H1 & H2 & H3 & H4 & H5).
      by exists prof, pn, dept, dn, course.
    + intros (prof & pn & dept & dn & course & H1 & H2 & H3 & H4 & H5 & <- & <-).
      exists (workload_entry_of
                (pn, dn, length (filter (λ s, workload_key s = (pn, dn))
                                   (match_workload (g self))))).
      split; [|by split].
      apply list_elem_of_fmap. eexists (pn, dn, _). split; [done|].
      apply Hrows. split; [|reflexivity].
      exists (prof, pn, dept, dn, course). split; [|done].
      by apply elem_of_match_workload.
Qed.

(** ** Course details, continued *)




(** ** Calls do not interfere *)

(** X13.  In a session every call answers what it would answer as the only
    call on the freshly loaded checker: the calls made before it change
    nothing. *)
Theorem session_calls_independent (py_int : string → option Z)
    (typed_bool : string → string → bool) (calls : list call)
    (self : CourseEligibilityChecker) :
  session py_int typed_bool calls self =
  (λ c, perform py_int typed_bool c self) <$> calls.
Proof.
  induction calls as [|c calls IH]; [done|].
  simpl. rewrite (read_only_perform py_int typed_bool c self).
  by rewrite IH.
Qed.

(** ** The demonstration driver *)

Lemma print_then {A : Type} (line : string) (k : unit → script A)
    (self : CourseEligibilityChecker) (out : list string) :
  (print line ≫= k) (self, out) = k () (self, out ++ [line]).
Proof. reflexivity. Qed.

Lemma call_returns_then {A B : Type} (m : method A) (k : A → script B)
    (self : CourseEligibilityChecker) (out : list string) (a : A) :
  m self = (Returns a, self) →
  (call_method m ≫= k) (self, out) = k a (self, out).
Proof.
  intros Hm. unfold mbind, script_bind, call_method. simpl. by rewrite Hm.
Qed.

Lemma call_raises_then {A B : Type} (m : method A) (k : A → script B)
    (self : CourseEligibilityChecker) (out : list string) (e : exn) :
  m self = (Raises e, self) →
  (call_method m ≫= k) (self, out) = (Raises e, (self, out)).
Proof.
  intros Hm. unfold mbind, script_bind, call_method. simpl. by rewrite Hm.
Qed.

Lemma for_print {A : Type} (f : A → string) (l : list A)
    (self : CourseEligibilityChecker) (out : list string) :
  for_ l (λ x, print (f x)) (self, out) = (Returns (), (self, out ++ (f <$> l))).
Proof.
  revert out. induction l as [|x l IH]; intros out; simpl.
  - by rewrite app_nil_r.
  - unfold mbind, script_bind. simpl. rewrite IH. by rewrite <- app_assoc.
Qed.

Lemma for_print_then {A B : Type} (f : A → string) (l : list A)
    (k : unit → script B) (self : CourseEligibilityChecker)
    (out : list string) :
  (for_ l (λ x, print (f x)) ≫= k) (self, out) = k () (self, out ++ (f <$> l)).
Proof. unfold mbind at 1, script_bind at 1. by rewrite for_print. Qed.

Lemma ret_then {A B : Type} (a : A) (k : A → script B)
    (st : CourseEligibilityChecker * list string) :
  (mret a ≫= k) st = k a st.
Proof. reflexivity. Qed.

Lemma script_bind_assoc {A B C : Type} (m : script A) (f : A → script B)
    (k : B → script C) (st : CourseEligibilityChecker * list string) :
  ((m ≫= f) ≫= k) st = (m ≫= λ x, f x ≫= k) st.
Proof.
  unfold mbind, script_bind. by destruct (m st) as [[a|e] st'].
Qed.

Lemma call_then {A B : Type} (m : method A) (k : A → script B)
    (self : CourseEligibilityChecker) (out : list string) :
  read_only m →
  (call_method m ≫= k) (self, out) =
  match (m self).1 with
  | Returns a => k a (self, out)
  | Raises e => (Raises e, (self, out))
  end.
Proof.
  intros Hm. unfold mbind, script_bind, call_method. simpl.
  rewrite (Hm self). by destruct (m self).1.
Qed.

Lemma print_run (line : string) (self : CourseEligibilityChecker)
    (out : list string) :
  print line (self, out) = (Returns (), (self, out ++ [line])).
Proof. reflexivity. Qed.

Ltac run_script :=
  repeat (first [ rewrite script_bind_assoc
                | rewrite print_then
                | rewrite for_print_then
                | rewrite ret_then
                | rewrite print_run ];
          cbv beta).

Section MainProperties.

Variable py_int : string → option Z.
Variable typed_bool : string → string → bool.


(** X15.  When the three reports come back, [main] runs to its end, leaves
    the checker as it was and adds to the output 26 lines, one line for
    each available course and one for each workload entry; for a known
    CS-401 ten lines more, one for each of its direct and of its
    transitive prerequisites, and the line of missing prerequisites
    exactly when [can_enroll] has said no. *)
Theorem main_line_count (self : CourseEligibilityChecker)
    (out : list string) (available : list available_course)
    (info : option course_info) (r : bool * list string)
    (workload : list workload_entry) :
  get_available_courses py_int "Student001" self = (Returns available, self) →
  get_course_info py_int typed_bool "CS-401" self = (Returns info, self) →
  can_enroll "Student001" "CS-401" self = (Returns r, self) →
  get_professor_workload self = (Returns workload, self) →
  ∃ lines : list string,
    main py_int typed_bool (self, out) = (Returns (), (self, out ++ lines)) ∧
    length lines =
      26 + length available + length workload +
      match info with
      | Some i =>
          10 + length (direct_prerequisites i) +
          length (all_prerequisites i) + (if r.1 then 0 else 1)
      | None => 0
      end.
Proof.
  intros Hav Hinfo Hce Hwl.
  unfold main. cbv zeta. run_script.
  rewrite (call_returns_then _ _ _ _ _ (get_courses_taken_run _ _)).
  run_script.
  rewrite (call_returns_then _ _ _ _ _ Hav). run_script.
  rewrite (call_returns_then _ _ _ _ _ Hinfo).
  destruct info as [info|]; run_script.
  - rewrite (call_returns_then _ _ _ _ _ Hce). run_script.
    destruct r as [[|] missing]; cbn [fst snd negb]; run_script;
      rewrite (call_returns_then _ _ _ _ _ Hwl); run_script;
      rewrite <- !app_assoc; (eexists; split; [reflexivity|]);
      rewrite !length_app, !length_fmap; simpl; lia.
  - rewrite (call_returns_then _ _ _ _ _ Hwl). run_script.
    rewrite <- !app_assoc. eexists. split; [reflexivity|].
    rewrite !length_app, !length_fmap. simpl. lia.
Qed.

End MainProperties.

(** The run of [main] on the sample campus: 44 lines. *)
Lemma main_line_count_witness :
  ∃ lines : list string,
    main decimal_int any_typed ({| g := campus |}, []) =
      (Returns (), ({| g := campus |}, [] ++ lines)) ∧
    length lines = 44.
Proof.
  apply (main_line_count decimal_int any_typed {| g := campus |} []
           [{| code := "CS-201"; name := "Data Structures"; credits := 4 |}]
           (Some {| info_code := "CS-401"; info_name := "Machine Learning";
                    info_credits := 4; info_professor := "Ada";
                    info_department := "Computer Science";
                    direct_prerequisites := ["CS-301"];
                    all_prerequisites := ["CS-301"; "CS-101"; "CS-201"] |})
           (false, ["CS-201"; "CS-301"])
           [{| professor := "Ada"; department := "Computer Science";
               courses := 2 |};
            {| professor := "Bob"; department := "Computer Science";
               courses := 2 |}]).
  - rewrite get_available_courses_run.
    apply (f_equal (λ v, (v, _))). by vm_compute.
  - rewrite get_course_info_run.
    apply (f_equal (λ v, (v, _))). by vm_compute.
  - rewrite can_enroll_run.
    apply (f_equal (λ v, (Returns v, _))). by vm_compute.
  - rewrite get_professor_workload_run.
    apply (f_equal (λ v, (Returns v, _))). by vm_compute.
Defined.

(** *** The width of the table *)

Lemma py_len_app (s1 s2 : string) :
  py_len (s1 +:+ s2) = py_len s1 + py_len s2.
Proof.
  induction s1 as [|a s1 IH]; [done|].
  simpl. rewrite IH. by destruct (bool_decide _).
Qed.

Lemma py_len_blanks (n : nat) : py_len (str_times " " n) = n.
Proof.
  unfold str_times. induction n as [|n IH]; [done|].
  destruct n as [|n]; [done|].
  change (py_len (" " +:+ "" +:+ String.concat "" (replicate (S n) " "))
          = S (S n)).
  rewrite !py_len_app, IH. done.
Qed.

Lemma py_len_ljust (width : nat) (s : string) :
  py_len (ljust width s) = width `max` py_len s.
Proof. unfold ljust. rewrite py_len_app, py_len_blanks. lia. Qed.

(** X16.  A row of the workload table is never narrower than the 62
    characters of the header line, and exactly as wide when name,
    department and count fit their columns of 30, 20 and 10 characters:
    then the columns line up. *)
Theorem table_columns_line_up (prof : workload_entry) :
  py_len table_head = 62 ∧
  62 ≤ py_len (table_row prof) ∧
  (py_len (professor prof) ≤ 30 →
   py_len (department prof) ≤ 20 →
   py_len (pretty (courses prof)) ≤ 10 →
   py_len (table_row prof) = py_len table_head).
Proof.
  assert (py_len table_head = 62) as Hhead by (by vm_compute).
  rewrite Hhead. unfold table_row.
  rewrite !py_len_app, !py_len_ljust.
  change (py_len " ") with 1. split_and!; [done|lia|lia].
Qed.

Lemma table_columns_line_up_witness :
  py_len (table_row {| professor := "Ada";
                       department := "Computer Science";
                       courses := 2 |}) = py_len table_head.
Proof.
  apply (table_columns_line_up
           {| professor := "Ada"; department := "Computer Science";
              courses := 2 |}); vm_compute; lia.
Defined.
